(** * deploy-vcl: a shallow embedding of [src/tasks/deploy.js]

    The task drives a remote, versioned configuration service through the
    [fastly] client: list services, clone the active version, delete the
    clone's VCL files, upload the new ones, set the main file, validate and
    activate.  The generator body run by [co] is embedded in an
    exception/state monad whose state is the remote store, the trace of
    client requests with their responses, the log and the exit routine. *)

From Stdlib Require Import Ascii String List Bool Arith Lia.
Import ListNotations.
Open Scope string_scope.
Open Scope list_scope.

(** ** Data *)

(** A VCL file, [{name, content}]. *)
Record vcl := mkVcl { vcl_name : string; vcl_content : string }.

(** A service as listed by [getServices]: [{id, name, version}]. *)
Record service := mkService { svc_id : string; svc_name : string; svc_version : nat }.

(** The body of a [validateVersion] response. *)
Record validation := mkValidation { status : string; diagnostics : list string }.

(** The client requests issued by the task. *)
Inductive call :=
| GetServices
| CloneVersion (version : nat)
| GetVcl (version : nat)
| DeleteVcl (version : nat) (name : string)
| UpdateVcl (version : nat) (name content : string)
| SetVclAsMain (version : nat) (name : string)
| ValidateVersion (version : nat)
| ActivateVersion (version : nat).

(** The value a request settles with; [RFail] is a rejection. *)
Inductive response :=
| RServices (l : list service)
| RClone (number : nat)
| RVcls (l : list vcl)
| RUnit
| RValidation (v : validation)
| RFail (message : string).

(** JavaScript values thrown in the task.  [TaggedError] is an [Error] whose
    [type] property is the module's private symbol [VCL_VALIDATION_ERROR]
    and whose [validation] property holds a value. *)
Inductive js_error :=
| NewError (message : string)
| TypeError (message : string)
| ClientError (message : string)
| TaggedError (message : string) (validation : js_value)
with js_value :=
| JsUndefined
| JsObject (e : js_error).

(** [err.type && err.type === VCL_VALIDATION_ERROR] on an object. *)
Definition has_validation_type (e : js_error) : bool :=
  match e with TaggedError _ _ => true | _ => false end.

(** [err.validation] on an object. *)
Definition validation_of (e : js_error) : js_value :=
  match e with TaggedError _ v => v | _ => JsUndefined end.

(** JavaScript truthiness of strings and of possibly undefined strings. *)
Definition truthy (s : string) : bool := negb (String.eqb s "").

Definition truthy_opt (s : option string) : bool :=
  match s with Some x => truthy x | None => false end.

(** [a || b] for a possibly undefined string [a]. *)
Definition js_or (a : option string) (b : string) : string :=
  match a with Some x => if truthy x then x else b | None => b end.

(** ** The remote service

    Modelled from the spec: the Remote Config Client of section 6 and the
    data model of section 3 (the client library is not part of the
    repository).  A version holds its files; cloning copies them into a
    fresh version number; only activation changes a service's active
    version.  Any request may fail in transport, as decided by an oracle,
    which also decides the outcome of validating each version. *)
Record store := mkStore {
  services : list service;
  versions : nat -> option (list vcl);
  mains : nat -> option string;
  next_version : nat }.

Record oracle := mkOracle {
  transport_fail : call -> option string;
  validate_result : nat -> validation }.

Definition set_version (st : store) (v : nat) (fs : list vcl) : store :=
  {| services := services st;
     versions := fun k => if Nat.eqb k v then Some fs else versions st k;
     mains := mains st; next_version := next_version st |}.

Definition has_name (name : string) (fs : list vcl) : bool :=
  existsb (fun f => String.eqb (vcl_name f) name) fs.

(** Create the file, or replace the content of the file of that name. *)
Fixpoint upsert (name content : string) (fs : list vcl) : list vcl :=
  match fs with
  | [] => [mkVcl name content]
  | f :: r => if String.eqb (vcl_name f) name then mkVcl name content :: r
              else f :: upsert name content r
  end.

Definition activate_in (sid : string) (v : nat) (l : list service) : list service :=
  map (fun s => if String.eqb (svc_id s) sid
                then mkService (svc_id s) (svc_name s) v else s) l.

(** One request of the client bound to service [sid]. *)
Definition remote_step (o : oracle) (sid : string) (st : store) (c : call)
  : store * response :=
  match transport_fail o c with
  | Some m => (st, RFail m)
  | None =>
    match c with
    | GetServices => (st, RServices (services st))
    | CloneVersion v =>
        match versions st v with
        | Some fs =>
            let n := next_version st in
            ({| services := services st;
                versions := fun k => if Nat.eqb k n then Some fs else versions st k;
                mains := mains st; next_version := S n |}, RClone n)
        | None => (st, RFail "version not found")
        end
    | GetVcl v =>
        match versions st v with
        | Some fs => (st, RVcls fs)
        | None => (st, RFail "version not found")
        end
    | DeleteVcl v name =>
        match versions st v with
        | Some fs =>
            if has_name name fs
            then (set_version st v (filter (fun f => negb (String.eqb (vcl_name f) name)) fs), RUnit)
            else (st, RFail "vcl not found")
        | None => (st, RFail "version not found")
        end
    | UpdateVcl v name content =>
        match versions st v with
        | Some fs => (set_version st v (upsert name content fs), RUnit)
        | None => (st, RFail "version not found")
        end
    | SetVclAsMain v name =>
        match versions st v with
        | Some fs =>
            if has_name name fs
            then ({| services := services st; versions := versions st;
                     mains := fun k => if Nat.eqb k v then Some name else mains st k;
                     next_version := next_version st |}, RUnit)
            else (st, RFail "vcl not found")
        | None => (st, RFail "version not found")
        end
    | ValidateVersion v =>
        match versions st v with
        | Some _ => (st, RValidation (validate_result o v))
        | None => (st, RFail "version not found")
        end
    | ActivateVersion v =>
        match versions st v with
        | Some _ =>
            ({| services := activate_in sid v (services st); versions := versions st;
                mains := mains st; next_version := next_version st |}, RUnit)
        | None => (st, RFail "version not found")
        end
    end
  end.

(** ** Log and exit *)

(** Modelled from the spec: the logger of [../lib/logger] (not under src/),
    recorded as the entries the task passes to it.  Progress messages
    ([log.info], [log.verbose]) do not affect control flow and are not
    recorded. *)
Inductive log_entry :=
| LogError (message : string)
| LogErrorValue (v : js_value)
| LogStack (e : js_error)
| LogSuccess (message : string)
| LogArt (name kind : string).

Record world := mkWorld {
  w_store : store;
  w_trace : list (call * response);
  w_log : list log_entry;
  w_exit : option string }.

(** ** The exception/state monad of the generator body *)

Inductive result (A : Type) :=
| Ok (a : A)
| Throw (v : js_value).
Arguments Ok {A} a.
Arguments Throw {A} v.

Definition M (A : Type) := world -> result A * world.

Definition ret {A} (a : A) : M A := fun w => (Ok a, w).

Definition bind {A B} (m : M A) (k : A -> M B) : M B :=
  fun w => match m w with
           | (Ok a, w') => k a w'
           | (Throw v, w') => (Throw v, w')
           end.

Definition throw {A} (v : js_value) : M A := fun w => (Throw v, w).

(** [promise.catch(handler)] *)
Definition catch {A} (m : M A) (h : js_value -> M A) : M A :=
  fun w => match m w with
           | (Ok a, w') => (Ok a, w')
           | (Throw v, w') => h v w'
           end.

Notation "x <- m ;; k" := (bind m (fun x => k))
  (at level 61, m at next level, right associativity).

Definition log (e : log_entry) : M unit :=
  fun w => (Ok tt, {| w_store := w_store w; w_trace := w_trace w;
                      w_log := w_log w ++ [e]; w_exit := w_exit w |}).

(** Modelled from the spec: [../lib/exit] (not under src/) terminates the
    process with a non-zero status after printing its message. *)
Definition exit (message : string) : M unit :=
  fun w => (Ok tt, {| w_store := w_store w; w_trace := w_trace w;
                      w_log := w_log w; w_exit := Some message |}).

Definition throw_error {A} (message : string) : M A :=
  throw (JsObject (NewError message)).

Section Task.

Variable o : oracle.

(** [../lib/loadVcl] (not under src/): reads the folder with the
    environment it is given, and either throws or yields the files. *)
Variable loadVcl : (string -> option string) -> string -> list string -> js_error + list vcl.

(** One client request: recorded in the trace, rejected on [RFail]. *)
Definition request (sid : string) (c : call) : M response :=
  fun w =>
    let (st', r) := remote_step o sid (w_store w) c in
    let w' := {| w_store := st'; w_trace := w_trace w ++ [(c, r)];
                 w_log := w_log w; w_exit := w_exit w |} in
    match r with
    | RFail m => (Throw (JsObject (ClientError m)), w')
    | _ => (Ok r, w')
    end.

(** The requests of [xs.map(...)], all issued before any is awaited. *)
Fixpoint issue (sid : string) (cs : list call) (w : world) : list response * world :=
  match cs with
  | [] => ([], w)
  | c :: cs' =>
      let (st', r) := remote_step o sid (w_store w) c in
      let w' := {| w_store := st'; w_trace := w_trace w ++ [(c, r)];
                   w_log := w_log w; w_exit := w_exit w |} in
      let (rs, w'') := issue sid cs' w' in (r :: rs, w'')
  end.

Fixpoint first_failure (rs : list response) : option string :=
  match rs with
  | [] => None
  | RFail m :: _ => Some m
  | _ :: rs' => first_failure rs'
  end.

(** [yield Promise.all(requests)]: it rejects with the reason of a rejected
    request (the first one in issue order is taken as representative). *)
Definition promise_all (sid : string) (cs : list call) : M unit :=
  fun w =>
    let (rs, w') := issue sid cs w in
    match first_failure rs with
    | Some m => (Throw (JsObject (ClientError m)), w')
    | None => (Ok tt, w')
    end.

Definition unexpected {A} : M A := throw (JsObject (TypeError "unexpected response")).

Definition as_services (r : response) : M (list service) :=
  match r with RServices l => ret l | _ => unexpected end.
Definition as_clone (r : response) : M nat :=
  match r with RClone n => ret n | _ => unexpected end.
Definition as_vcls (r : response) : M (list vcl) :=
  match r with RVcls l => ret l | _ => unexpected end.
Definition as_validation (r : response) : M validation :=
  match r with RValidation v => ret v | _ => unexpected end.

Definition from_load (x : js_error + list vcl) : M (list vcl) :=
  match x with inl e => throw (JsObject e) | inr l => ret l end.

(** The options after [Object.assign({main:'main.vcl', ...}, opts)]. *)
Record options := mkOptions {
  main : string;
  opt_service : option string;
  vars : list string }.

Definition env_set (env : string -> option string) (k v : string) : string -> option string :=
  fun k' => if String.eqb k' k then Some v else env k'.

(** [const serviceId = process.env[opts.service] || opts.service] *)
Definition resolve_service_id (env : string -> option string) (service : string) : string :=
  js_or (env service) service.

(** The generator body of [task(folder, opts)] run by [co]. *)
Definition deploy_body (folder : string) (opts : options) (env : string -> option string)
  : M unit :=
  if negb (truthy_opt (opt_service opts)) then
    throw_error "the service parameter is required set to the service id of a environment variable name"
  else if negb (truthy_opt (env "FASTLY_APIKEY")) then
    throw_error "FASTLY_APIKEY not found"
  else
  let service := match opt_service opts with Some s => s | None => "" end in
  let serviceId := resolve_service_id env service in
  if negb (truthy serviceId) then throw_error "No service "
  else
  let env' := if existsb (String.eqb "SERVICEID") (vars opts)
              then env_set env "SERVICEID" serviceId else env in
  vcls <- from_load (loadVcl env' folder (vars opts)) ;;
  services <- (r <- request serviceId GetServices ;; as_services r) ;;
  match find (fun s => String.eqb (svc_id s) serviceId) services with
  | None => throw (JsObject (TypeError "Cannot read property 'version' of undefined"))
  | Some service =>
    let activeVersion := svc_version service in
    cloneResponse <- (r <- request serviceId (CloneVersion activeVersion) ;; as_clone r) ;;
    let newVersion := cloneResponse in
    oldVcl <- (r <- request serviceId (GetVcl newVersion) ;; as_vcls r) ;;
    _ <- promise_all serviceId (map (fun v => DeleteVcl newVersion (vcl_name v)) oldVcl) ;;
    _ <- promise_all serviceId
           (map (fun v => UpdateVcl newVersion (vcl_name v) (vcl_content v)) vcls) ;;
    _ <- request serviceId (SetVclAsMain newVersion (main opts)) ;;
    validationResponse <-
      (r <- catch (request serviceId (ValidateVersion newVersion))
                  (fun err =>
                     let error := TaggedError "VCL Validation Error" err in
                     throw err) ;;
       as_validation r) ;;
    _ <- (if String.eqb (status validationResponse) "ok" then
            _ <- request serviceId (ActivateVersion newVersion) ;; ret tt
          else throw_error "VCL failed validation for some unknown reason") ;;
    _ <- log (LogSuccess "Your VCL has been deployed.  Have a nice cup of tea and relax") ;;
    log (LogArt "tea" "success")
  end.

(** The terminal [.catch(err => ...)] of the task. *)
Definition on_error (err : js_value) : M unit :=
  match err with
  | JsUndefined => throw (JsObject (TypeError "Cannot read property 'type' of undefined"))
  | JsObject e =>
      _ <- (if has_validation_type e then
              _ <- log (LogError "VCL Validation Error") ;;
              log (LogErrorValue (validation_of e))
            else log (LogStack e)) ;;
      exit "Bailing..."
  end.

(** [task(folder, opts)]: the promise [co(body).catch(handler)]. *)
Definition task (folder : string) (opts : options) (env : string -> option string) : M unit :=
  catch (deploy_body folder opts env) on_error.

End Task.

(** A run from a store, with an empty trace and log. *)
Definition init (st : store) : world := mkWorld st [] [] None.

Definition calls (w : world) : list call := map fst (w_trace w).

Definition is_activate (c : call) : bool :=
  match c with ActivateVersion _ => true | _ => false end.

(** The active version of service [sid] in a store. *)
Definition active_version (st : store) (sid : string) : option nat :=
  option_map svc_version (find (fun s => String.eqb (svc_id s) sid) (services st)).

Definition upload_all (l fs : list vcl) : list vcl :=
  fold_left (fun acc f => upsert (vcl_name f) (vcl_content f) acc) l fs.

Definition without_names (l fs : list vcl) : list vcl :=
  filter (fun f => negb (has_name (vcl_name f) l)) fs.

Definition is_file_call (c : call) : bool :=
  match c with DeleteVcl _ _ | UpdateVcl _ _ _ => true | _ => false end.

(** The entries the terminal handler logs for a thrown object. *)
Definition handler_log (e : js_error) : list log_entry :=
  if has_validation_type e
  then [LogError "VCL Validation Error"; LogErrorValue (validation_of e)]
  else [LogStack e].

(** The version a request is about ([None] for [getServices]). *)
Definition call_version (c : call) : option nat :=
  match c with
  | GetServices => None
  | CloneVersion v | GetVcl v | DeleteVcl v _ | UpdateVcl v _ _ | SetVclAsMain v _
  | ValidateVersion v | ActivateVersion v => Some v
  end.

(** ** The command line *)

(** [list(val)], the parser of the [--vars] option: [val.split(',')]. *)
Fixpoint list' (val : string) : list string :=
  match val with
  | EmptyString => [""]
  | String c rest =>
      let pieces := list' rest in
      if Ascii.eqb c ","%char then "" :: pieces
      else match pieces with
           | [] => [String c ""]
           | p :: ps => String c p :: ps
           end
  end.

Fixpoint count_commas (s : string) : nat :=
  match s with
  | EmptyString => 0
  | String c rest => (if Ascii.eqb c ","%char then 1 else 0) + count_commas rest
  end.

Fixpoint has_comma (s : string) : bool :=
  match s with
  | EmptyString => false
  | String c rest => Ascii.eqb c ","%char || has_comma rest
  end.

(** The object [opts] given to [task(folder, opts)]; [None] is a property
    the object does not have. *)
Record cli_options := mkCliOptions {
  cli_main : option string;
  cli_env : option bool;
  cli_service : option string;
  cli_vars : option (list string);
  cli_verbose : option bool }.

(** [Object.assign({main: 'main.vcl', env: false, service: null, vars: [],
    verbose: false}, opts)], with the properties the generator reads. *)
Definition assign_options (opts : cli_options) : options :=
  mkOptions (match cli_main opts with Some m => m | None => "main.vcl" end)
            (cli_service opts)
            (match cli_vars opts with Some v => v | None => [] end).

Definition env_option (opts : cli_options) : bool :=
  match cli_env opts with Some b => b | None => false end.

Section Cli.

Variable o : oracle.
Variable loadVcl : (string -> option string) -> string -> list string -> js_error + list vcl.

(** [require('dotenv').load()] (a library): the process environment after
    loading the [.env] file. *)
Variable dotenv_load : (string -> option string) -> string -> option string.

(** The text [exit] is given for an error value (the exit routine is not
    under src/). *)
Variable show_error : js_value -> string.

(** [task(folder, opts)] as a whole: the defaults, the optional [.env]
    file, then the promise [task] above. *)
Definition task_cli (folder : string) (opts : cli_options) (env : string -> option string)
  : M unit :=
  let env' := if env_option opts then dotenv_load env else env in
  task o loadVcl folder (assign_options opts) env'.

(** The [.action(function(folder, options) {...})] of the [deploy-vcl]
    command. *)
Definition action (folder : option string) (options : cli_options)
  (env : string -> option string) : M unit :=
  if truthy_opt folder then
    catch (task_cli (match folder with Some f => f | None => "" end) options env)
          (fun err => exit (show_error err))
  else exit "Please provide a folder where the .vcl is located".

End Cli.

(** ** Concrete runs: the scenarios of the spec *)
Module Scenarios.

Definition env (k : string) : option string :=
  if String.eqb k "FASTLY_APIKEY" then Some "key" else None.

Definition files : list vcl :=
  [mkVcl "main.vcl" "m"; mkVcl "edge.vcl" "e"; mkVcl "util.vcl" "u"].

Definition load (_ : string -> option string) (_ : string) (_ : list string)
  : js_error + list vcl := inr files.

Definition st0 : store :=
  {| services := [mkService "svc1" "Service" 5];
     versions := fun k => if Nat.eqb k 5 then Some [mkVcl "old1.vcl" "a"; mkVcl "old2.vcl" "b"]
                          else None;
     mains := fun _ => None; next_version := 6 |}.

Definition ok_oracle : oracle :=
  {| transport_fail := fun _ => None; validate_result := fun _ => mkValidation "ok" [] |}.

Definition opts : options := mkOptions "main.vcl" (Some "svc1") [].

(** Scenario B: validation answers with a non-[ok] status. *)
Definition reject_oracle : oracle :=
  {| transport_fail := fun _ => None;
     validate_result := fun _ => mkValidation "error" ["unknown variable X"] |}.

(** Scenario C: the upload of [edge.vcl] is rejected. *)
Definition upload_fail_oracle : oracle :=
  {| transport_fail := fun c =>
       match c with
       | UpdateVcl _ n _ => if String.eqb n "edge.vcl" then Some "500 Internal Server Error" else None
       | _ => None
       end;
     validate_result := fun _ => mkValidation "ok" [] |}.

(** The validation request itself fails in transport. *)
Definition validate_transport_oracle : oracle :=
  {| transport_fail := fun c =>
       match c with ValidateVersion _ => Some "ETIMEDOUT" | _ => None end;
     validate_result := fun _ => mkValidation "ok" [] |}.

(** A service identifier that no listed service has. *)
Definition opts_unknown : options := mkOptions "main.vcl" (Some "svc2") [].

(** No service option. *)
Definition opts_no_service : options := mkOptions "main.vcl" None [].

Definition run_body (o : oracle) (opts : options) : result unit * world :=
  deploy_body o load "vcl" opts env (init st0).

Definition run_task (o : oracle) (opts : options) : result unit * world :=
  task o load "vcl" opts env (init st0).

(** The deletion of [old1.vcl] is rejected. *)
Definition delete_fail_oracle : oracle :=
  {| transport_fail := fun c =>
       match c with
       | DeleteVcl _ n => if String.eqb n "old1.vcl" then Some "404 Not Found" else None
       | _ => None
       end;
     validate_result := fun _ => mkValidation "ok" [] |}.

(** A loader whose files need the variable [AUTH_KEY] of the environment
    it is given. *)
Definition load_needs_auth_key (e : string -> option string) (_ : string) (_ : list string)
  : js_error + list vcl :=
  match e "AUTH_KEY" with
  | Some _ => inr files
  | None => inl (NewError "AUTH_KEY is not set")
  end.

(** The command-line options of scenario A: only [--service svc1]. *)
Definition cli_opts : cli_options := mkCliOptions None None (Some "svc1") None None.

End Scenarios.

(** ** Lemmas about the remote model and the fan-out *)

Lemma remote_step_services o sid st c :
  is_activate c = false -> services (fst (remote_step o sid st c)) = services st.
Proof.
  intros Hc; unfold remote_step.
  destruct (transport_fail o c); [reflexivity|].
  destruct c; cbn in *; try discriminate;
    repeat (match goal with |- context [match ?x with _ => _ end] => destruct x end);
    reflexivity.
Qed.

Lemma issue_inv o sid cs w rs w' :
  issue o sid cs w = (rs, w') ->
  w_trace w' = w_trace w ++ combine cs rs /\ length rs = length cs /\
  w_log w' = w_log w /\ w_exit w' = w_exit w /\
  (forallb (fun c => negb (is_activate c)) cs = true ->
   services (w_store w') = services (w_store w)).
Proof.
  revert w rs w'; induction cs as [|c cs IH]; intros w rs w' E; cbn in E.
  - inversion E; subst; cbn; rewrite app_nil_r; repeat split; auto.
  - destruct (remote_step o sid (w_store w) c) as [st1 r1] eqn:Hs.
    destruct (issue o sid cs _) as [rs1 w1] eqn:Hi.
    inversion E; subst rs w'.
    destruct (IH _ _ _ Hi) as (Ht & Hl & Hg & Hx & Hv); cbn in *.
    rewrite Ht, <- app_assoc; repeat split; auto.
    intros Hall; apply andb_prop in Hall as [Ha Hall].
    rewrite (Hv Hall); cbn.
    change st1 with (fst (st1, r1)); rewrite <- Hs.
    apply remote_step_services; now destruct (is_activate c).
Qed.

Lemma first_failure_none rs :
  first_failure rs = None -> forall m, ~ In (RFail m) rs.
Proof.
  induction rs as [|r rs IH]; cbn; [tauto|].
  intros H m [Hm|Hm]; subst; try discriminate.
  destruct r; try discriminate; exact (IH H m Hm).
Qed.

Lemma first_failure_some rs m :
  first_failure rs = Some m -> In (RFail m) rs.
Proof.
  induction rs as [|r rs IH]; cbn; [discriminate|].
  destruct r; intros H; try (right; now apply IH).
  left; congruence.
Qed.

Lemma in_combine_map {A} (f : A -> call) (l : list A) (rs : list response) c r :
  In (c, r) (combine (map f l) rs) -> In r rs /\ exists x : A, In x l /\ c = f x.
Proof.
  revert rs; induction l as [|x l IH]; intros [|r' rs]; cbn; try tauto.
  intros [H|H].
  - inversion H; subst; split; [left; auto | exists x; auto].
  - destruct (IH _ H) as (Hr & y & Hy & ->); split; [right; auto | exists y; auto].
Qed.

Lemma map_fst_combine {A B} (l : list A) (l' : list B) :
  length l' = length l -> map fst (combine l l') = l.
Proof.
  revert l'; induction l as [|x l IH]; intros [|y l'] H; cbn in *; try discriminate; auto.
  f_equal; auto.
Qed.

Lemma truthy_resolve env s : truthy s = true -> truthy (resolve_service_id env s) = true.
Proof.
  unfold resolve_service_id, js_or; destruct (env s) as [x|]; auto.
  destruct (truthy x) eqn:H; auto.
Qed.

(** Symbolic execution of a run of the body, one scrutinee at a time. *)
Ltac step_in E :=
  cbn [remote_step transport_fail versions services mains next_version
       w_store w_trace w_log w_exit set_version fst snd] in E;
  try rewrite Nat.eqb_refl in E;
  match type of E with
  | context [match ?x with _ => _ end] =>
      lazymatch x with
      | issue _ _ _ _ => destruct x eqn:?
      | context [match _ with _ => _ end] => fail
      | _ => destruct x eqn:?
      end
  end.

Ltac run_body E :=
  unfold deploy_body, request, promise_all, as_services, as_clone, as_vcls,
    as_validation, from_load, unexpected, throw_error, log, catch, bind, ret, throw,
    init, remote_step in E;
  repeat step_in E.

Ltac issue_facts :=
  repeat match goal with
  | Hi : issue _ _ _ _ = (_, _) |- _ =>
      let Ht := fresh "Ht" in let Hl := fresh "Hl" in let Hg := fresh "Hg" in
      let Hx := fresh "Hx" in let Hv := fresh "Hv" in
      destruct (issue_inv _ _ _ _ _ _ Hi) as (Ht & Hl & Hg & Hx & Hv);
      cbn in Ht, Hg, Hx; clear Hi
  end.

Lemma forallb_not_activate_delete v (l : list vcl) :
  forallb (fun c => negb (is_activate c)) (map (fun f => DeleteVcl v (vcl_name f)) l) = true.
Proof. induction l; cbn; auto. Qed.

Lemma forallb_not_activate_update v (l : list vcl) :
  forallb (fun c => negb (is_activate c))
    (map (fun f => UpdateVcl v (vcl_name f) (vcl_content f)) l) = true.
Proof. induction l; cbn; auto. Qed.

Lemma filter_filter_and {A} (p q : A -> bool) l :
  filter p (filter q l) = filter (fun x => q x && p x) l.
Proof.
  induction l as [|x l IH]; cbn; auto.
  destruct (q x); cbn; [destruct (p x); cbn; rewrite IH; reflexivity | exact IH].
Qed.

Lemma issue_delete_versions o sid v (l : list vcl) :
  forall w rs w' fs,
  issue o sid (map (fun f => DeleteVcl v (vcl_name f)) l) w = (rs, w') ->
  first_failure rs = None ->
  versions (w_store w) v = Some fs ->
  versions (w_store w') v = Some (without_names l fs).
Proof.
  unfold without_names.
  induction l as [|x l IH]; intros w rs w' fs Hi Hf Hv; cbn in Hi.
  - inversion Hi; subst; rewrite Hv; f_equal.
    clear; induction fs as [|f fs IHf]; cbn in *; [reflexivity | congruence].
  - unfold remote_step in Hi.
    destruct (transport_fail o (DeleteVcl v (vcl_name x))) eqn:Ht.
    { destruct (issue _ _ _ _) eqn:Hi'; inversion Hi; subst; discriminate. }
    rewrite Hv in Hi.
    destruct (has_name (vcl_name x) fs) eqn:Hn.
    2:{ destruct (issue _ _ _ _) eqn:Hi'; inversion Hi; subst; discriminate. }
    destruct (issue _ _ _ _) as [rs1 w1] eqn:Hi'; inversion Hi; subst rs w'.
    cbn in Hf.
    rewrite (IH _ _ _ (filter (fun f => negb (vcl_name f =? vcl_name x)) fs) Hi' Hf)
      by (cbn; now rewrite Nat.eqb_refl).
    f_equal; rewrite filter_filter_and; apply filter_ext; intros f; unfold has_name; cbn.
    destruct (String.eqb_spec (vcl_name f) (vcl_name x)) as [Ef|Ef].
    + rewrite Ef, String.eqb_refl; reflexivity.
    + destruct (String.eqb_spec (vcl_name x) (vcl_name f)); [congruence|reflexivity].
Qed.

Lemma issue_update_versions o sid v (l : list vcl) :
  forall w rs w' fs,
  issue o sid (map (fun f => UpdateVcl v (vcl_name f) (vcl_content f)) l) w = (rs, w') ->
  first_failure rs = None ->
  versions (w_store w) v = Some fs ->
  versions (w_store w') v = Some (upload_all l fs).
Proof.
  unfold upload_all.
  induction l as [|x l IH]; intros w rs w' fs Hi Hf Hv; cbn in Hi.
  - inversion Hi; subst; exact Hv.
  - unfold remote_step in Hi.
    destruct (transport_fail o (UpdateVcl v (vcl_name x) (vcl_content x))) eqn:Ht.
    { destruct (issue _ _ _ _) eqn:Hi'; inversion Hi; subst; discriminate. }
    rewrite Hv in Hi.
    destruct (issue _ _ _ _) as [rs1 w1] eqn:Hi'; inversion Hi; subst rs w'.
    cbn in Hf; cbn.
    apply (IH _ _ _ _ Hi' Hf); cbn; now rewrite Nat.eqb_refl.
Qed.

Lemma without_names_self l : without_names l l = [].
Proof.
  unfold without_names.
  assert (H : forall fs, (forall f, In f fs -> In f l) ->
              filter (fun f => negb (has_name (vcl_name f) l)) fs = []).
  { induction fs as [|f fs IH]; intros Hin; cbn; auto.
    replace (has_name (vcl_name f) l) with true; cbn.
    - apply IH; intros g Hg; apply Hin; now right.
    - symmetry; apply existsb_exists; exists f; split.
      + apply Hin; now left.
      + apply String.eqb_refl. }
  apply H; auto.
Qed.

Lemma upsert_fresh n c fs :
  ~ In n (map vcl_name fs) -> upsert n c fs = fs ++ [mkVcl n c].
Proof.
  induction fs as [|f fs IH]; cbn; intros Hn; auto.
  destruct (vcl_name f =? n) eqn:E.
  - apply String.eqb_eq in E; tauto.
  - f_equal; auto.
Qed.

Lemma upload_all_fresh l acc :
  NoDup (map vcl_name (acc ++ l)) -> upload_all l acc = acc ++ l.
Proof.
  unfold upload_all; revert acc; induction l as [|f l IH]; intros acc Hnd; cbn.
  - now rewrite app_nil_r.
  - rewrite upsert_fresh.
    + replace (acc ++ f :: l) with ((acc ++ [mkVcl (vcl_name f) (vcl_content f)]) ++ l).
      * apply IH; rewrite <- app_assoc; destruct f; exact Hnd.
      * rewrite <- app_assoc; destruct f; reflexivity.
    + rewrite map_app in Hnd; cbn in Hnd.
      apply NoDup_remove_2 in Hnd; rewrite in_app_iff in Hnd; tauto.
Qed.

Lemma find_activate_in sid v l s :
  find (fun s => String.eqb (svc_id s) sid) l = Some s ->
  find (fun s => String.eqb (svc_id s) sid) (activate_in sid v l) =
  Some (mkService (svc_id s) (svc_name s) v).
Proof.
  induction l as [|x l IH]; cbn; [discriminate|].
  destruct (svc_id x =? sid) eqn:E; cbn.
  - intros H; inversion H; subst; cbn; now rewrite E.
  - rewrite E; auto.
Qed.

(** What a run of the body that completes has done. *)
Lemma deploy_body_success o ld folder opts env st0 w :
  deploy_body o ld folder opts env (init st0) = (Ok tt, w) ->
  exists s sv old vcls env',
    opt_service opts = Some s /\
    ld env' folder (vars opts) = inr vcls /\
    find (fun x => String.eqb (svc_id x) (resolve_service_id env s)) (services st0) = Some sv /\
    versions st0 (svc_version sv) = Some old /\
    calls w =
      [GetServices; CloneVersion (svc_version sv); GetVcl (next_version st0)] ++
      map (fun f => DeleteVcl (next_version st0) (vcl_name f)) old ++
      map (fun f => UpdateVcl (next_version st0) (vcl_name f) (vcl_content f)) vcls ++
      [SetVclAsMain (next_version st0) (main opts); ValidateVersion (next_version st0);
       ActivateVersion (next_version st0)] /\
    In (ValidateVersion (next_version st0),
        RValidation (validate_result o (next_version st0))) (w_trace w) /\
    status (validate_result o (next_version st0)) = "ok" /\
    versions (w_store w) (next_version st0) = Some (upload_all vcls (without_names old old)) /\
    services (w_store w) =
      activate_in (resolve_service_id env s) (next_version st0) (services st0).
Proof.
  intros E; run_body E; try discriminate.
  all: injection E as <-.
  all: match goal with
       | H1 : _ ?e _ _ = inr ?v, H2 : find _ (services _) = Some ?sv,
         H3 : versions _ (svc_version ?sv) = Some ?l, H0 : opt_service _ = Some ?s |- _ =>
           exists s, sv, l, v, e; split; [reflexivity|]; split; [exact H1|];
           split; [exact H2|]; split; [exact H3|]
       end.
  all: match goal with
       | Hd : issue _ _ _ _ = (?rd, _), Hu : issue _ _ _ _ = (?ru, _),
         Hfd : first_failure ?rd = None, Hfu : first_failure ?ru = None,
         H3 : versions _ (svc_version _) = Some ?old |- _ =>
           pose proof (issue_delete_versions _ _ _ _ _ _ _ old Hd Hfd) as Vd;
           pose proof (issue_update_versions _ _ _ _ _ _ _ (without_names old old) Hu Hfu) as Vu
       end.
  all: specialize (Vu (Vd ltac:(cbn; now rewrite Nat.eqb_refl))).
  all: issue_facts.
  all: split; [unfold calls; cbn; rewrite ?Ht, ?Ht0; cbn;
               repeat rewrite ?map_app, ?map_fst_combine by assumption; cbn;
               rewrite <- ?app_assoc; reflexivity|].
  all: split; [cbn; apply in_or_app; left; apply in_or_app; right; now left|].
  all: split; [apply String.eqb_eq; assumption|].
  all: split; [cbn; exact Vu|].
  all: cbn; f_equal.
  all: rewrite Hv by apply forallb_not_activate_update.
  all: rewrite Hv0 by apply forallb_not_activate_delete; reflexivity.
Qed.

Lemma existsb_activate_delete v (l : list vcl) :
  existsb is_activate (map (fun f => DeleteVcl v (vcl_name f)) l) = false.
Proof. induction l; cbn; auto. Qed.

Lemma existsb_activate_update v (l : list vcl) :
  existsb is_activate (map (fun f => UpdateVcl v (vcl_name f) (vcl_content f)) l) = false.
Proof. induction l; cbn; auto. Qed.

Lemma not_in_activate l :
  existsb is_activate l = false -> forall v, ~ In (ActivateVersion v) l.
Proof.
  intros H v Hin.
  assert (existsb is_activate l = true) by (apply existsb_exists; exists (ActivateVersion v); auto).
  congruence.
Qed.

Lemma in_combine_map_fail {A} (f : A -> call) (l : list A) rs c m :
  first_failure rs = None -> ~ In (c, RFail m) (combine (map f l) rs).
Proof.
  intros Hf Hin; apply in_combine_map in Hin as [Hr _].
  exact (first_failure_none _ Hf m Hr).
Qed.

Lemma in_combine_map_call {A} (f : A -> call) (l : list A) (rs : list response) c r :
  In (c, r) (combine (map f l) rs) -> exists x, c = f x.
Proof. intros Hin; apply in_combine_map in Hin as (_ & x & _ & Hx); eauto. Qed.

Lemma in_combine_first_failure {A} (f : A -> call) (l : list A) rs m :
  first_failure rs = Some m -> length rs = length (map f l) ->
  exists x, In (f x, RFail m) (combine (map f l) rs).
Proof.
  revert rs; induction l as [|y l IH]; intros [|r rs] Hf Hl; cbn in *; try discriminate.
  destruct r; try (destruct (IH rs Hf ltac:(congruence)) as [x Hx]; exists x; now right).
  inversion Hf; subst; exists y; now left.
Qed.

(** A run that stops before activation: no activation in the calls, and the
    services as they were. *)
Ltac rewrite_traces :=
  repeat match goal with
  | H : w_trace ?x = _ |- context [w_trace ?x] => rewrite H
  end.

Ltac rewrite_traces_in Hin :=
  repeat match goal with
  | H : w_trace ?x = _ |- _ =>
      match type of Hin with context [w_trace x] => rewrite H in Hin end
  end.

Ltac rewrite_services :=
  repeat match goal with
  | H : forallb _ _ = true -> services ?x = _ |- context [services ?x] =>
      rewrite H by first [apply forallb_not_activate_update | apply forallb_not_activate_delete]
  end.

Ltac stopped_before_activation :=
  split;
  [apply not_in_activate; unfold calls; cbn; rewrite_traces; cbn;
   repeat rewrite ?map_app, ?map_fst_combine by assumption;
   cbn; rewrite ?existsb_app; cbn;
   rewrite ?existsb_activate_delete, ?existsb_activate_update; cbn; reflexivity
  |cbn; rewrite_services; reflexivity].

(** Split a membership in a concrete trace into its entries and close the
    entries that cannot be the one sought. *)
Ltac trace_cases :=
  repeat match goal with
  | H : False |- _ => destruct H
  | H : _ \/ _ |- _ => destruct H
  | H : (_, _) = (_, _) |- _ => inversion H; subst; clear H
  | H : In (_, RFail _) (combine (map _ _) _) |- _ =>
      eapply in_combine_map_fail; [|exact H]; eassumption
  | H : In (ValidateVersion _, _) (combine (map _ _) _) |- _ =>
      apply in_combine_map_call in H as [? H]; discriminate H
  | H : In (GetServices, _) (combine (map _ _) _) |- _ =>
      apply in_combine_map_call in H as [? H]; discriminate H
  end.

(** ** C1: the requests of a deployment that completes *)

(** C1 (amended).  A run of the body that completes has issued exactly
    these client requests, in this order: list the services, clone the
    active version of the service whose identifier is the one resolved from
    the service option, list the files of the clone, delete
    every listed file, upload every loaded file, set the main file, validate,
    activate; and validation answered with status [ok] before activation. *)
Theorem deploy_success_calls o ld folder opts env st0 w
  (E : deploy_body o ld folder opts env (init st0) = (Ok tt, w)) :
  exists s sv old vcls env',
    opt_service opts = Some s /\
    ld env' folder (vars opts) = inr vcls /\
    find (fun x => String.eqb (svc_id x) (resolve_service_id env s)) (services st0) = Some sv /\
    versions st0 (svc_version sv) = Some old /\
    calls w =
      [GetServices; CloneVersion (svc_version sv); GetVcl (next_version st0)] ++
      map (fun f => DeleteVcl (next_version st0) (vcl_name f)) old ++
      map (fun f => UpdateVcl (next_version st0) (vcl_name f) (vcl_content f)) vcls ++
      [SetVclAsMain (next_version st0) (main opts); ValidateVersion (next_version st0);
       ActivateVersion (next_version st0)] /\
    In (ValidateVersion (next_version st0),
        RValidation (validate_result o (next_version st0))) (w_trace w) /\
    status (validate_result o (next_version st0)) = "ok".
Proof.
  destruct (deploy_body_success _ _ _ _ _ _ _ E)
    as (s & sv & old & vcls & env' & Hs & Hl & Hf & Hv & Hc & Hin & Hok & _).
  exists s, sv, old, vcls, env'; repeat split; assumption.
Qed.

(** Scenario A runs through. *)
Lemma deploy_success_calls_witness :
  Scenarios.run_body Scenarios.ok_oracle Scenarios.opts
    = (Ok tt, snd (Scenarios.run_body Scenarios.ok_oracle Scenarios.opts)) /\
  exists s sv old vcls env',
    opt_service Scenarios.opts = Some s /\
    Scenarios.load env' "vcl" (vars Scenarios.opts) = inr vcls /\
    find (fun x => String.eqb (svc_id x) (resolve_service_id Scenarios.env s))
      (services Scenarios.st0) = Some sv /\
    versions Scenarios.st0 (svc_version sv) = Some old /\
    calls (snd (Scenarios.run_body Scenarios.ok_oracle Scenarios.opts)) =
      [GetServices; CloneVersion (svc_version sv); GetVcl (next_version Scenarios.st0)] ++
      map (fun f => DeleteVcl (next_version Scenarios.st0) (vcl_name f)) old ++
      map (fun f => UpdateVcl (next_version Scenarios.st0) (vcl_name f) (vcl_content f)) vcls ++
      [SetVclAsMain (next_version Scenarios.st0) (main Scenarios.opts);
       ValidateVersion (next_version Scenarios.st0);
       ActivateVersion (next_version Scenarios.st0)] /\
    In (ValidateVersion (next_version Scenarios.st0),
        RValidation (validate_result Scenarios.ok_oracle (next_version Scenarios.st0)))
       (w_trace (snd (Scenarios.run_body Scenarios.ok_oracle Scenarios.opts))) /\
    status (validate_result Scenarios.ok_oracle (next_version Scenarios.st0)) = "ok".
Proof.
  split; [vm_compute; reflexivity|].
  apply deploy_success_calls; vm_compute; reflexivity.
Defined.

(** C1 counterexample.  In scenario A the run completes, yet its first
    request lists the services and a listing of the clone's files comes
    between the clone and the deletions: the requests are not exactly
    clone, deletions, uploads, main file, validation, activation. *)
Lemma deploy_calls_include_listings :
  fst (Scenarios.run_body Scenarios.ok_oracle Scenarios.opts) = Ok tt /\
  calls (snd (Scenarios.run_body Scenarios.ok_oracle Scenarios.opts)) =
    [GetServices; CloneVersion 5; GetVcl 6;
     DeleteVcl 6 "old1.vcl"; DeleteVcl 6 "old2.vcl";
     UpdateVcl 6 "main.vcl" "m"; UpdateVcl 6 "edge.vcl" "e"; UpdateVcl 6 "util.vcl" "u";
     SetVclAsMain 6 "main.vcl"; ValidateVersion 6; ActivateVersion 6].
Proof. split; vm_compute; reflexivity. Qed.

(** ** C2: a failed run leaves the active version alone *)

(** C2.  If any request of a run other than the activation failed, or the
    validation answered with a status other than [ok], then no activation
    was requested and the services, with their active versions, are those
    of the start of the run. *)
Theorem failed_run_keeps_active_version o ld folder opts env st0 r w
  (E : deploy_body o ld folder opts env (init st0) = (r, w))
  (Hfail : (exists c m, In (c, RFail m) (w_trace w) /\ is_activate c = false) \/
           (exists v vr, In (ValidateVersion v, RValidation vr) (w_trace w) /\
                         status vr <> "ok")) :
  (forall v, ~ In (ActivateVersion v) (calls w)) /\ services (w_store w) = services st0.
Proof.
  run_body E.
  all: injection E as <- <-; issue_facts.
  all: try stopped_before_activation.
  all: exfalso; cbn in Hfail; rewrite_traces_in Hfail.
  all: destruct Hfail as [(c & m & Hin & Hc) | (v & vr & Hin & Hs)].
  all: repeat rewrite ?in_app_iff in Hin; cbn in Hin.
  all: trace_cases.
  all: try discriminate.
  all: apply Hs, String.eqb_eq; assumption.
Qed.

(** Scenario B: the validation rejects the version. *)
Lemma failed_run_keeps_active_version_witness :
  Scenarios.run_body Scenarios.reject_oracle Scenarios.opts
    = (fst (Scenarios.run_body Scenarios.reject_oracle Scenarios.opts),
       snd (Scenarios.run_body Scenarios.reject_oracle Scenarios.opts)) /\
  (forall v, ~ In (ActivateVersion v)
                 (calls (snd (Scenarios.run_body Scenarios.reject_oracle Scenarios.opts)))) /\
  services (w_store (snd (Scenarios.run_body Scenarios.reject_oracle Scenarios.opts)))
    = services Scenarios.st0.
Proof.
  split; [reflexivity|].
  apply (failed_run_keeps_active_version Scenarios.reject_oracle Scenarios.load "vcl"
           Scenarios.opts Scenarios.env Scenarios.st0
           (fst (Scenarios.run_body Scenarios.reject_oracle Scenarios.opts))
           (snd (Scenarios.run_body Scenarios.reject_oracle Scenarios.opts))).
  - reflexivity.
  - right; exists 6, (mkValidation "error" ["unknown variable X"]); split.
    + vm_compute; tauto.
    + discriminate.
Defined.

(** ** C5: the activated version holds exactly the new files *)

(** C5.  When the loaded files have distinct names, a run that completes
    leaves the service's active version at the new version, whose files are
    exactly the loaded ones; every file inherited by the clone from the
    previously active version has its deletion requested before the first
    upload. *)
Theorem deploy_success_file_set o ld folder opts env st0 w
  (E : deploy_body o ld folder opts env (init st0) = (Ok tt, w))
  (Hnames : forall e vcls, ld e folder (vars opts) = inr vcls -> NoDup (map vcl_name vcls)) :
  exists s vcls env' av old,
    opt_service opts = Some s /\
    ld env' folder (vars opts) = inr vcls /\
    active_version (w_store w) (resolve_service_id env s) = Some (next_version st0) /\
    versions (w_store w) (next_version st0) = Some vcls /\
    active_version st0 (resolve_service_id env s) = Some av /\
    versions st0 av = Some old /\
    exists pre post,
      calls w = pre ++ map (fun f => DeleteVcl (next_version st0) (vcl_name f)) old ++
                map (fun f => UpdateVcl (next_version st0) (vcl_name f) (vcl_content f)) vcls ++
                post.
Proof.
  destruct (deploy_body_success _ _ _ _ _ _ _ E)
    as (s & sv & old & vcls & env' & Hs & Hl & Hf & Hv & Hc & _ & _ & Hfiles & Hsvc).
  exists s, vcls, env', (svc_version sv), old.
  split; [exact Hs|]; split; [exact Hl|].
  split; [unfold active_version; rewrite Hsvc, (find_activate_in _ _ _ _ Hf); reflexivity|].
  split; [rewrite Hfiles, without_names_self, upload_all_fresh; [reflexivity|];
          exact (Hnames _ _ Hl)|].
  split; [unfold active_version; rewrite Hf; reflexivity|].
  split; [exact Hv|].
  exists [GetServices; CloneVersion (svc_version sv); GetVcl (next_version st0)],
         [SetVclAsMain (next_version st0) (main opts); ValidateVersion (next_version st0);
          ActivateVersion (next_version st0)].
  exact Hc.
Qed.

(** Scenario A, whose three files have distinct names. *)
Lemma deploy_success_file_set_witness :
  (forall e vcls, Scenarios.load e "vcl" (vars Scenarios.opts) = inr vcls ->
                  NoDup (map vcl_name vcls)) /\
  exists s vcls env' av old,
    opt_service Scenarios.opts = Some s /\
    Scenarios.load env' "vcl" (vars Scenarios.opts) = inr vcls /\
    active_version (w_store (snd (Scenarios.run_body Scenarios.ok_oracle Scenarios.opts)))
      (resolve_service_id Scenarios.env s) = Some (next_version Scenarios.st0) /\
    versions (w_store (snd (Scenarios.run_body Scenarios.ok_oracle Scenarios.opts)))
      (next_version Scenarios.st0) = Some vcls /\
    active_version Scenarios.st0 (resolve_service_id Scenarios.env s) = Some av /\
    versions Scenarios.st0 av = Some old /\
    exists pre post,
      calls (snd (Scenarios.run_body Scenarios.ok_oracle Scenarios.opts)) =
        pre ++ map (fun f => DeleteVcl (next_version Scenarios.st0) (vcl_name f)) old ++
        map (fun f => UpdateVcl (next_version Scenarios.st0) (vcl_name f) (vcl_content f)) vcls ++
        post.
Proof.
  assert (Hn : forall e vcls, Scenarios.load e "vcl" (vars Scenarios.opts) = inr vcls ->
                              NoDup (map vcl_name vcls)).
  { intros e vcls H; inversion H; subst; cbn.
    repeat constructor; cbn; intuition discriminate. }
  split; [exact Hn|].
  apply (deploy_success_file_set Scenarios.ok_oracle Scenarios.load "vcl" Scenarios.opts
           Scenarios.env Scenarios.st0); [vm_compute; reflexivity | exact Hn].
Defined.

(** ** C8: a failed deletion or upload *)

(** C8 (amended).  If a deletion or an upload request of a run was
    rejected, the run fails with the rejection value of one of the rejected
    deletion or upload requests, passed on unchanged (the task attaches no
    file name of its own); no activation is requested, and the services keep
    their active versions. *)
Theorem file_request_failure_not_activated o ld folder opts env st0 r w
  (E : deploy_body o ld folder opts env (init st0) = (r, w))
  (Hfail : exists c m, In (c, RFail m) (w_trace w) /\ is_file_call c = true) :
  (exists c m, In (c, RFail m) (w_trace w) /\ is_file_call c = true /\
               r = Throw (JsObject (ClientError m))) /\
  (forall v, ~ In (ActivateVersion v) (calls w)) /\ services (w_store w) = services st0.
Proof.
  run_body E.
  all: injection E as <- <-; issue_facts.
  all: first
    [ match goal with
      | Hf : first_failure ?rs = Some ?m, Hl : Datatypes.length ?rs = Datatypes.length (map ?f ?l) |- _ =>
          destruct (in_combine_first_failure f l rs m Hf Hl) as [x Hfx];
          split; [exists (f x), m; split; [rewrite_traces; repeat rewrite in_app_iff; cbn [In];
                                           repeat (first [exact Hfx | left; exact Hfx | right])
                                          |split; reflexivity]
                 |stopped_before_activation]
      end
    | exfalso; destruct Hfail as (c & m & Hin & Hc); cbn in Hin; rewrite_traces_in Hin;
      repeat rewrite ?in_app_iff in Hin; cbn in Hin; trace_cases; discriminate ].
Qed.

(** Scenario C: the upload of [edge.vcl] is rejected. *)
Lemma file_request_failure_not_activated_witness :
  Scenarios.run_body Scenarios.upload_fail_oracle Scenarios.opts
    = (fst (Scenarios.run_body Scenarios.upload_fail_oracle Scenarios.opts),
       snd (Scenarios.run_body Scenarios.upload_fail_oracle Scenarios.opts)) /\
  (exists c m, In (c, RFail m)
                  (w_trace (snd (Scenarios.run_body Scenarios.upload_fail_oracle Scenarios.opts))) /\
               is_file_call c = true /\
               fst (Scenarios.run_body Scenarios.upload_fail_oracle Scenarios.opts)
                 = Throw (JsObject (ClientError m))) /\
  (forall v, ~ In (ActivateVersion v)
                 (calls (snd (Scenarios.run_body Scenarios.upload_fail_oracle Scenarios.opts)))) /\
  services (w_store (snd (Scenarios.run_body Scenarios.upload_fail_oracle Scenarios.opts)))
    = services Scenarios.st0.
Proof.
  split; [reflexivity|].
  apply (file_request_failure_not_activated Scenarios.upload_fail_oracle Scenarios.load "vcl"
           Scenarios.opts Scenarios.env Scenarios.st0
           (fst (Scenarios.run_body Scenarios.upload_fail_oracle Scenarios.opts))
           (snd (Scenarios.run_body Scenarios.upload_fail_oracle Scenarios.opts))).
  - reflexivity.
  - exists (UpdateVcl 6 "edge.vcl" "e"), "500 Internal Server Error"; split.
    + vm_compute; tauto.
    + reflexivity.
Defined.

(** C8 counterexample.  In scenario C the upload of [edge.vcl] is rejected
    with ["500 Internal Server Error"]; the run fails with that rejection
    value itself, which names no file, and the handler logs its stack. *)
Lemma upload_failure_names_no_file :
  fst (Scenarios.run_body Scenarios.upload_fail_oracle Scenarios.opts) =
    Throw (JsObject (ClientError "500 Internal Server Error")) /\
  w_log (snd (Scenarios.run_task Scenarios.upload_fail_oracle Scenarios.opts)) =
    [LogStack (ClientError "500 Internal Server Error")].
Proof. split; vm_compute; reflexivity. Qed.

(** ** The terminal handler *)

(** A run of the body that throws has thrown an object, has logged nothing
    and has not exited. *)
Lemma deploy_body_throw o ld folder opts env st0 v w :
  deploy_body o ld folder opts env (init st0) = (Throw v, w) ->
  (exists e, v = JsObject e) /\ w_log w = [] /\ w_exit w = None.
Proof.
  intros E; run_body E; try discriminate.
  all: injection E as <- <-; issue_facts.
  all: split; [eexists; reflexivity|]; cbn.
  all: repeat match goal with
       | H : w_log ?x = _ |- context [w_log ?x] => rewrite H
       | H : w_exit ?x = _ |- context [w_exit ?x] => rewrite H
       end.
  all: split; reflexivity.
Qed.

Lemma task_ok o ld folder opts env w0 a w :
  deploy_body o ld folder opts env w0 = (Ok a, w) ->
  task o ld folder opts env w0 = (Ok a, w).
Proof. intros E; unfold task, catch; rewrite E; reflexivity. Qed.

Lemma task_throw_object o ld folder opts env w0 e w :
  deploy_body o ld folder opts env w0 = (Throw (JsObject e), w) ->
  task o ld folder opts env w0 =
    (Ok tt, {| w_store := w_store w; w_trace := w_trace w;
               w_log := w_log w ++ handler_log e; w_exit := Some "Bailing..." |}).
Proof.
  intros E; unfold task, catch; rewrite E; cbn.
  unfold handler_log; destruct (has_validation_type e); cbn;
    rewrite <- ?app_assoc; reflexivity.
Qed.

(** A run whose validation request was rejected throws the rejection value. *)
Lemma validate_failure_thrown o ld folder opts env st0 r w v m :
  deploy_body o ld folder opts env (init st0) = (r, w) ->
  In (ValidateVersion v, RFail m) (w_trace w) ->
  r = Throw (JsObject (ClientError m)).
Proof.
  intros E Hin; run_body E.
  all: injection E as <- <-; issue_facts.
  all: cbn in Hin; rewrite_traces_in Hin; repeat rewrite ?in_app_iff in Hin; cbn in Hin.
  all: trace_cases; reflexivity.
Qed.

(** A run whose validation answered with a status other than [ok] throws
    the generic error of the task. *)
Lemma validate_reject_thrown o ld folder opts env st0 r w v vr :
  deploy_body o ld folder opts env (init st0) = (r, w) ->
  In (ValidateVersion v, RValidation vr) (w_trace w) -> status vr <> "ok" ->
  r = Throw (JsObject (NewError "VCL failed validation for some unknown reason")).
Proof.
  intros E Hin Hs; run_body E.
  all: injection E as <- <-; issue_facts.
  all: cbn in Hin; rewrite_traces_in Hin; repeat rewrite ?in_app_iff in Hin; cbn in Hin.
  all: trace_cases; try reflexivity.
  all: exfalso; apply Hs, String.eqb_eq; assumption.
Qed.

(** What a run of the task is, from the run of its body. *)
Lemma task_cases o ld folder opts env st0 :
  (exists w, deploy_body o ld folder opts env (init st0) = (Ok tt, w) /\
             task o ld folder opts env (init st0) = (Ok tt, w)) \/
  (exists e w, deploy_body o ld folder opts env (init st0) = (Throw (JsObject e), w) /\
               w_log w = [] /\
               task o ld folder opts env (init st0) =
                 (Ok tt, {| w_store := w_store w; w_trace := w_trace w;
                            w_log := handler_log e; w_exit := Some "Bailing..." |})).
Proof.
  destruct (deploy_body o ld folder opts env (init st0)) as [[[]|v] w] eqn:E.
  - left; exists w; split; [reflexivity | exact (task_ok _ _ _ _ _ _ _ _ E)].
  - right; destruct (deploy_body_throw _ _ _ _ _ _ _ _ E) as ([e ->] & Hl & _).
    exists e, w; split; [reflexivity|]; split; [exact Hl|].
    rewrite (task_throw_object _ _ _ _ _ _ _ _ E), Hl; reflexivity.
Qed.

(** ** C3: a failed validation request *)

(** C3 (the code diverges).  If the validation request of a run of the task
    was rejected with [m], the handler logs the stack of the rejection value
    itself through the generic branch: the wrapper tagged with
    [VCL_VALIDATION_ERROR] is built but the raw error is rethrown, so
    "VCL Validation Error" is never logged. *)
Theorem validate_transport_error_generic_branch o ld folder opts env st0 r w v m
  (E : task o ld folder opts env (init st0) = (r, w))
  (Hv : In (ValidateVersion v, RFail m) (w_trace w)) :
  w_log w = [LogStack (ClientError m)] /\ w_exit w = Some "Bailing..." /\
  ~ In (LogError "VCL Validation Error") (w_log w).
Proof.
  destruct (task_cases o ld folder opts env st0) as [(wb & Eb & Et) | (e & wb & Eb & Hl & Et)];
    rewrite Et in E; injection E as <- <-.
  - discriminate (validate_failure_thrown _ _ _ _ _ _ _ _ _ _ Eb Hv).
  - cbn in Hv; pose proof (validate_failure_thrown _ _ _ _ _ _ _ _ _ _ Eb Hv) as H.
    injection H as ->; cbn; split; [reflexivity|]; split; [reflexivity|].
    intros [H|[]]; discriminate.
Qed.

(** The validation request of scenario A fails in transport. *)
Lemma validate_transport_error_generic_branch_witness :
  In (ValidateVersion 6, RFail "ETIMEDOUT")
     (w_trace (snd (Scenarios.run_task Scenarios.validate_transport_oracle Scenarios.opts))) /\
  w_log (snd (Scenarios.run_task Scenarios.validate_transport_oracle Scenarios.opts))
    = [LogStack (ClientError "ETIMEDOUT")] /\
  w_exit (snd (Scenarios.run_task Scenarios.validate_transport_oracle Scenarios.opts))
    = Some "Bailing..." /\
  ~ In (LogError "VCL Validation Error")
       (w_log (snd (Scenarios.run_task Scenarios.validate_transport_oracle Scenarios.opts))).
Proof.
  assert (Hv : In (ValidateVersion 6, RFail "ETIMEDOUT")
     (w_trace (snd (Scenarios.run_task Scenarios.validate_transport_oracle Scenarios.opts))))
    by (vm_compute; tauto).
  split; [exact Hv|].
  exact (validate_transport_error_generic_branch Scenarios.validate_transport_oracle
           Scenarios.load "vcl" Scenarios.opts Scenarios.env Scenarios.st0
           (fst (Scenarios.run_task Scenarios.validate_transport_oracle Scenarios.opts))
           (snd (Scenarios.run_task Scenarios.validate_transport_oracle Scenarios.opts))
           6 "ETIMEDOUT" ltac:(vm_compute; reflexivity) Hv).
Defined.

(** ** C4: validation answers with a status other than [ok] *)

(** C4 (amended).  If the validation of a run of the task answered with a
    status other than [ok], the run fails with the task's own generic error
    "VCL failed validation for some unknown reason", which carries no
    payload: the handler logs its stack through the generic branch, logs
    nothing of the diagnostics, and exits. *)
Theorem validation_rejected_generic_error o ld folder opts env st0 r w v vr
  (E : task o ld folder opts env (init st0) = (r, w))
  (Hv : In (ValidateVersion v, RValidation vr) (w_trace w))
  (Hs : status vr <> "ok") :
  w_log w = [LogStack (NewError "VCL failed validation for some unknown reason")] /\
  w_exit w = Some "Bailing...".
Proof.
  destruct (task_cases o ld folder opts env st0) as [(wb & Eb & Et) | (e & wb & Eb & Hl & Et)];
    rewrite Et in E; injection E as <- <-.
  - discriminate (validate_reject_thrown _ _ _ _ _ _ _ _ _ _ Eb Hv Hs).
  - cbn in Hv; pose proof (validate_reject_thrown _ _ _ _ _ _ _ _ _ _ Eb Hv Hs) as H.
    injection H as ->; cbn; split; reflexivity.
Qed.

(** Scenario B. *)
Lemma validation_rejected_generic_error_witness :
  In (ValidateVersion 6, RValidation (mkValidation "error" ["unknown variable X"]))
     (w_trace (snd (Scenarios.run_task Scenarios.reject_oracle Scenarios.opts))) /\
  w_log (snd (Scenarios.run_task Scenarios.reject_oracle Scenarios.opts))
    = [LogStack (NewError "VCL failed validation for some unknown reason")] /\
  w_exit (snd (Scenarios.run_task Scenarios.reject_oracle Scenarios.opts))
    = Some "Bailing...".
Proof.
  assert (Hv : In (ValidateVersion 6, RValidation (mkValidation "error" ["unknown variable X"]))
     (w_trace (snd (Scenarios.run_task Scenarios.reject_oracle Scenarios.opts))))
    by (vm_compute; tauto).
  split; [exact Hv|].
  exact (validation_rejected_generic_error Scenarios.reject_oracle
           Scenarios.load "vcl" Scenarios.opts Scenarios.env Scenarios.st0
           (fst (Scenarios.run_task Scenarios.reject_oracle Scenarios.opts))
           (snd (Scenarios.run_task Scenarios.reject_oracle Scenarios.opts))
           6 (mkValidation "error" ["unknown variable X"])
           ltac:(vm_compute; reflexivity) Hv ltac:(discriminate)).
Defined.

(** C4 counterexample.  In scenario B the validation answers
    [{status: "error", diagnostics: ["unknown variable X"]}]; the run fails
    with an error that carries no diagnostics, and the handler logs only
    its stack. *)
Lemma validation_rejection_drops_diagnostics :
  fst (Scenarios.run_body Scenarios.reject_oracle Scenarios.opts) =
    Throw (JsObject (NewError "VCL failed validation for some unknown reason")) /\
  w_log (snd (Scenarios.run_task Scenarios.reject_oracle Scenarios.opts)) =
    [LogStack (NewError "VCL failed validation for some unknown reason")].
Proof. split; vm_compute; reflexivity. Qed.

(** ** C6: configuration errors *)

(** C6.  If the service option is missing or empty, or [FASTLY_APIKEY] is
    unset or empty, or the service identifier resolves to the empty string,
    the run throws one of the task's configuration errors and issues no
    client request. *)
Theorem config_error_no_calls o ld folder opts env st0 r w
  (E : deploy_body o ld folder opts env (init st0) = (r, w))
  (Hcfg : truthy_opt (opt_service opts) = false \/
          truthy_opt (env "FASTLY_APIKEY") = false \/
          truthy (resolve_service_id env
                    (match opt_service opts with Some s => s | None => "" end)) = false) :
  (exists msg, r = Throw (JsObject (NewError msg)) /\
     In msg ["the service parameter is required set to the service id of a environment variable name";
             "FASTLY_APIKEY not found"; "No service "]) /\
  w_trace w = [].
Proof.
  unfold deploy_body in E; cbv zeta in E.
  destruct (truthy_opt (opt_service opts)) eqn:H1; cbn [negb] in E.
  2:{ unfold throw_error, throw, init in E; injection E as <- <-.
      split; [eexists; split; [reflexivity | cbn; tauto] | reflexivity]. }
  destruct (truthy_opt (env "FASTLY_APIKEY")) eqn:H2; cbn [negb] in E.
  2:{ unfold throw_error, throw, init in E; injection E as <- <-.
      split; [eexists; split; [reflexivity | cbn; tauto] | reflexivity]. }
  destruct (truthy (resolve_service_id env _)) eqn:H3; cbn [negb] in E.
  2:{ unfold throw_error, throw, init in E; injection E as <- <-.
      split; [eexists; split; [reflexivity | cbn; tauto] | reflexivity]. }
  exfalso; destruct Hcfg as [H|[H|H]]; congruence.
Qed.

(** No service option. *)
Lemma config_error_no_calls_witness :
  truthy_opt (opt_service Scenarios.opts_no_service) = false /\
  (exists msg, fst (Scenarios.run_body Scenarios.ok_oracle Scenarios.opts_no_service)
                 = Throw (JsObject (NewError msg)) /\
     In msg ["the service parameter is required set to the service id of a environment variable name";
             "FASTLY_APIKEY not found"; "No service "]) /\
  w_trace (snd (Scenarios.run_body Scenarios.ok_oracle Scenarios.opts_no_service)) = [].
Proof.
  split; [reflexivity|].
  apply (config_error_no_calls Scenarios.ok_oracle Scenarios.load "vcl"
           Scenarios.opts_no_service Scenarios.env Scenarios.st0
           (fst (Scenarios.run_body Scenarios.ok_oracle Scenarios.opts_no_service))
           (snd (Scenarios.run_body Scenarios.ok_oracle Scenarios.opts_no_service)));
    [reflexivity | left; reflexivity].
Defined.

(** ** C7: no service has the identifier *)

(** The run of the body when no listed service has the identifier. *)
Lemma unknown_service_body o ld folder opts env st0 r w s l :
  deploy_body o ld folder opts env (init st0) = (r, w) ->
  opt_service opts = Some s ->
  In (GetServices, RServices l) (w_trace w) ->
  (forall sv, In sv l -> svc_id sv <> resolve_service_id env s) ->
  r = Throw (JsObject (TypeError "Cannot read property 'version' of undefined")) /\
  calls w = [GetServices].
Proof.
  intros E Hs Hl Hnone.
  unfold deploy_body in E; rewrite Hs in E; run_body E.
  all: injection E as <- <-; issue_facts.
  all: try (split; reflexivity).
  all: exfalso; cbn in Hl; rewrite_traces_in Hl; repeat rewrite ?in_app_iff in Hl; cbn in Hl.
  all: trace_cases.
  all: match goal with
       | Hf : find _ _ = Some ?sv |- _ =>
           apply find_some in Hf as [Hin Heq]; apply (Hnone sv Hin), String.eqb_eq, Heq
       end.
Qed.

(** C7 (amended).  If the listed services contain none whose identifier is
    the resolved service identifier, the run throws the [TypeError] of
    reading [version] of [undefined] (in the wording of the Node versions
    the package targets), not an error of its own, after the single request
    listing the services; the task's handler reports it through the generic
    branch, logging its stack, and calls the exit routine. *)
Theorem unknown_service_type_error o ld folder opts env st0 r w s l
  (E : deploy_body o ld folder opts env (init st0) = (r, w))
  (Hs : opt_service opts = Some s)
  (Hl : In (GetServices, RServices l) (w_trace w))
  (Hnone : forall sv, In sv l -> svc_id sv <> resolve_service_id env s) :
  r = Throw (JsObject (TypeError "Cannot read property 'version' of undefined")) /\
  calls w = [GetServices] /\
  task o ld folder opts env (init st0) =
    (Ok tt, {| w_store := w_store w; w_trace := w_trace w;
               w_log := w_log w ++ [LogStack (TypeError "Cannot read property 'version' of undefined")];
               w_exit := Some "Bailing..." |}).
Proof.
  destruct (unknown_service_body _ _ _ _ _ _ _ _ _ _ E Hs Hl Hnone) as [-> Hc].
  split; [reflexivity | split; [exact Hc|]].
  exact (task_throw_object _ _ _ _ _ _ _ _ E).
Qed.

(** The service option names a service that is not listed. *)
Lemma unknown_service_type_error_witness :
  opt_service Scenarios.opts_unknown = Some "svc2" /\
  fst (Scenarios.run_body Scenarios.ok_oracle Scenarios.opts_unknown) =
    Throw (JsObject (TypeError "Cannot read property 'version' of undefined")) /\
  calls (snd (Scenarios.run_body Scenarios.ok_oracle Scenarios.opts_unknown)) = [GetServices] /\
  task Scenarios.ok_oracle Scenarios.load "vcl" Scenarios.opts_unknown Scenarios.env
       (init Scenarios.st0) =
    (Ok tt, {| w_store := w_store (snd (Scenarios.run_body Scenarios.ok_oracle Scenarios.opts_unknown));
               w_trace := w_trace (snd (Scenarios.run_body Scenarios.ok_oracle Scenarios.opts_unknown));
               w_log := w_log (snd (Scenarios.run_body Scenarios.ok_oracle Scenarios.opts_unknown))
                          ++ [LogStack (TypeError "Cannot read property 'version' of undefined")];
               w_exit := Some "Bailing..." |}).
Proof.
  split; [reflexivity|].
  apply (unknown_service_type_error Scenarios.ok_oracle Scenarios.load "vcl"
           Scenarios.opts_unknown Scenarios.env Scenarios.st0
           (fst (Scenarios.run_body Scenarios.ok_oracle Scenarios.opts_unknown))
           (snd (Scenarios.run_body Scenarios.ok_oracle Scenarios.opts_unknown))
           "svc2" (services Scenarios.st0)).
  - vm_compute; reflexivity.
  - reflexivity.
  - vm_compute; left; reflexivity.
  - intros sv [<-|[]]; vm_compute; discriminate.
Defined.

(** C7 counterexample.  With the service option ["svc2"], which no listed
    service has, the run throws a [TypeError] and the handler logs its
    stack through the generic branch: no error names the missing service. *)
Lemma unknown_service_no_service_not_found :
  fst (Scenarios.run_body Scenarios.ok_oracle Scenarios.opts_unknown) =
    Throw (JsObject (TypeError "Cannot read property 'version' of undefined")) /\
  w_log (snd (Scenarios.run_task Scenarios.ok_oracle Scenarios.opts_unknown)) =
    [LogStack (TypeError "Cannot read property 'version' of undefined")].
Proof. split; vm_compute; reflexivity. Qed.

(** ** C9: resolving the service identifier *)

(** C9.  The service option is first looked up as an environment variable,
    whose value is the identifier when it is set and non-empty; when the
    variable is unset or empty, the option itself is the identifier. *)
Theorem resolve_service_id_env_first env s :
  (forall v, env s = Some v -> v <> "" -> resolve_service_id env s = v) /\
  (env s = None \/ env s = Some "" -> resolve_service_id env s = s).
Proof.
  unfold resolve_service_id, js_or, truthy; split.
  - intros v -> Hv; destruct (String.eqb_spec v "") as [->|_]; [contradiction | reflexivity].
  - intros [-> | ->]; reflexivity.
Qed.

(** ** C10: the task's promise never rejects *)

(** C10.  Every run of the task resolves: a run of the body that throws is
    caught by the terminal handler, which logs the thrown object and calls
    the exit routine. *)
Theorem task_never_rejects o ld folder opts env st0 :
  fst (task o ld folder opts env (init st0)) = Ok tt /\
  forall v wb, deploy_body o ld folder opts env (init st0) = (Throw v, wb) ->
    exists e, v = JsObject e /\
      task o ld folder opts env (init st0) =
        (Ok tt, {| w_store := w_store wb; w_trace := w_trace wb;
                   w_log := w_log wb ++ handler_log e; w_exit := Some "Bailing..." |}).
Proof.
  split.
  - destruct (task_cases o ld folder opts env st0) as [(wb & _ & Et) | (e & wb & _ & _ & Et)];
      rewrite Et; reflexivity.
  - intros v wb Eb.
    destruct (deploy_body_throw _ _ _ _ _ _ _ _ Eb) as ([e ->] & _).
    exists e; split; [reflexivity | exact (task_throw_object _ _ _ _ _ _ _ _ Eb)].
Qed.

(** ** Further properties of the code *)

(** Like [trace_cases], and also closing an entry of a fan-out whose request
    has another constructor. *)
Ltac trace_cases' :=
  repeat match goal with
  | H : False |- _ => destruct H
  | H : _ \/ _ |- _ => destruct H
  | H : (_, _) = (_, _) |- _ => inversion H; subst; clear H
  | H : In (_, RFail _) (combine (map _ _) _) |- _ =>
      exfalso; eapply in_combine_map_fail; [|exact H]; eassumption
  | H : In (?c, _) (combine (map _ _) _) |- _ =>
      apply in_combine_map_call in H as [? H]; discriminate H
  end.

Ltac split_trace_in H :=
  cbn in H; rewrite_traces_in H; repeat rewrite ?in_app_iff in H; cbn in H.

Ltac calls_of_trace :=
  unfold calls; rewrite_traces; cbn;
  repeat rewrite ?map_app, ?map_fst_combine by assumption; cbn;
  rewrite <- ?app_assoc; reflexivity.

(** *** [list] *)

Lemma list'_cons s : exists p ps, list' s = p :: ps.
Proof.
  destruct s as [|c rest]; cbn; [eauto|].
  destruct (Ascii.eqb c ","%char); [eauto|].
  destruct (list' rest); eauto.
Qed.

Lemma concat_cons2 sep x y l :
  String.concat sep (x :: y :: l) = (x ++ sep ++ String.concat sep (y :: l))%string.
Proof. reflexivity. Qed.

Lemma concat_head sep c p ps :
  String.concat sep (String c p :: ps) = String c (String.concat sep (p :: ps)).
Proof. destruct ps; reflexivity. Qed.

(** [list(val).join(',') === val]: the pieces joined with commas give the
    option back. *)
Theorem list'_join s : String.concat "," (list' s) = s.
Proof.
  induction s as [|c rest IH]; [reflexivity|]; cbn [list'].
  destruct (list'_cons rest) as (p & ps & Hp); rewrite Hp in *.
  destruct (Ascii.eqb_spec c ","%char) as [->|Hc].
  - rewrite concat_cons2, IH; reflexivity.
  - rewrite concat_head, IH; reflexivity.
Qed.

(** [list(val)] has one piece more than [val] has commas, and no piece
    holds a comma. *)
Theorem list'_pieces s :
  List.length (list' s) = S (count_commas s) /\
  forall x, In x (list' s) -> has_comma x = false.
Proof.
  induction s as [|c rest [IHl IHx]]; cbn [list' count_commas].
  - split; [reflexivity | intros x [<-|[]]; reflexivity].
  - destruct (list'_cons rest) as (p & ps & Hp); rewrite Hp in *.
    destruct (Ascii.eqb c ","%char) eqn:Hc; cbn in IHl |- *.
    + split; [lia | intros x [<-|Hx]; [reflexivity | now apply IHx]].
    + split; [lia|].
      intros x [<-|Hx]; cbn; [rewrite Hc; apply IHx; now left | apply IHx; now right].
Qed.

(** *** The options and the command *)

Lemma task_trace o ld folder opts env st0 r w :
  task o ld folder opts env (init st0) = (r, w) ->
  exists rb wb, deploy_body o ld folder opts env (init st0) = (rb, wb) /\
                w_trace w = w_trace wb /\ w_store w = w_store wb.
Proof.
  intros E.
  destruct (task_cases o ld folder opts env st0) as [(wb & Eb & Et)|(e & wb & Eb & _ & Et)];
    rewrite Et in E; injection E as <- <-.
  - exists (Ok tt), wb; split; [exact Eb | split; reflexivity].
  - exists (Throw (JsObject e)), wb; split; [exact Eb | split; reflexivity].
Qed.

Lemma body_set_main o ld folder opts env st0 r w v n resp :
  deploy_body o ld folder opts env (init st0) = (r, w) ->
  In (SetVclAsMain v n, resp) (w_trace w) -> n = main opts.
Proof.
  intros E Hin; run_body E.
  all: injection E as <- <-; issue_facts.
  all: split_trace_in Hin; trace_cases'; reflexivity.
Qed.

(** The main file of a run of [task(folder, opts)] is [opts.main], and
    ["main.vcl"] when [opts] has no [main]. *)
Theorem task_cli_entry_point o ld dotenv folder opts env st0 r w v n
  (E : task_cli o ld dotenv folder opts env (init st0) = (r, w))
  (Hin : In (SetVclAsMain v n) (calls w)) :
  n = match cli_main opts with Some m => m | None => "main.vcl" end.
Proof.
  unfold task_cli in E; cbv zeta in E.
  apply task_trace in E as (rb & wb & Eb & Ht & _).
  unfold calls in Hin; rewrite Ht in Hin.
  apply in_map_iff in Hin as ([c resp] & Hc & Hin); cbn in Hc; subst c.
  exact (body_set_main _ _ _ _ _ _ _ _ _ _ _ Eb Hin).
Qed.

(** Scenario A without [--main]. *)
Lemma task_cli_entry_point_witness :
  In (SetVclAsMain 6 "main.vcl")
     (calls (snd (task_cli Scenarios.ok_oracle Scenarios.load (fun e => e) "vcl"
                    Scenarios.cli_opts Scenarios.env (init Scenarios.st0)))) /\
  "main.vcl" = match cli_main Scenarios.cli_opts with Some m => m | None => "main.vcl" end.
Proof.
  assert (Hin : In (SetVclAsMain 6 "main.vcl")
     (calls (snd (task_cli Scenarios.ok_oracle Scenarios.load (fun e => e) "vcl"
                    Scenarios.cli_opts Scenarios.env (init Scenarios.st0)))))
    by (vm_compute; tauto).
  split; [exact Hin|].
  apply (task_cli_entry_point Scenarios.ok_oracle Scenarios.load (fun e => e) "vcl"
           Scenarios.cli_opts Scenarios.env Scenarios.st0
           (fst (task_cli Scenarios.ok_oracle Scenarios.load (fun e => e) "vcl"
                   Scenarios.cli_opts Scenarios.env (init Scenarios.st0)))
           (snd (task_cli Scenarios.ok_oracle Scenarios.load (fun e => e) "vcl"
                   Scenarios.cli_opts Scenarios.env (init Scenarios.st0)))
           6 "main.vcl"); [vm_compute; reflexivity | exact Hin].
Defined.

(** The command's action: with a folder it is the run of the task, whose
    [.catch(exit)] never fires; without a (non-empty) folder it only calls
    the exit routine with its message, issuing no request and logging
    nothing. *)
Theorem action_runs_task_or_exits o ld dotenv show folder options env st0 :
  (truthy_opt folder = true ->
   action o ld dotenv show folder options env (init st0) =
   task_cli o ld dotenv (match folder with Some f => f | None => "" end) options env (init st0)) /\
  (truthy_opt folder = false ->
   action o ld dotenv show folder options env (init st0) =
   (Ok tt, {| w_store := st0; w_trace := []; w_log := [];
              w_exit := Some "Please provide a folder where the .vcl is located" |})).
Proof.
  unfold action; split; intros H; rewrite H; [|reflexivity].
  unfold catch, task_cli; cbv zeta.
  destruct (task_cases o ld (match folder with Some f => f | None => "" end)
              (assign_options options)
              (if env_option options then dotenv env else env) st0)
    as [(wb & _ & Et)|(e & wb & _ & _ & Et)]; rewrite Et; reflexivity.
Qed.

(** *** The body of the task *)

(** When the service and the API key are set, an error that [loadVcl]
    throws on the environment it is given (the process environment, with
    [SERVICEID] set to the service identifier when [vars] includes it)
    aborts the run before any client request. *)
Theorem load_error_before_requests o ld folder opts env st0 r w s err
  (E : deploy_body o ld folder opts env (init st0) = (r, w))
  (Hs : opt_service opts = Some s) (Hts : truthy s = true)
  (Hkey : truthy_opt (env "FASTLY_APIKEY") = true)
  (Hld : ld (if existsb (String.eqb "SERVICEID") (vars opts)
             then env_set env "SERVICEID" (resolve_service_id env s) else env)
            folder (vars opts) = inl err) :
  r = Throw (JsObject err) /\ w_trace w = [].
Proof.
  unfold deploy_body in E; rewrite Hs in E; cbv zeta in E; rewrite Hld in E.
  cbn [truthy_opt] in E.
  rewrite Hts, Hkey, (truthy_resolve env s Hts) in E; cbn [negb] in E.
  unfold bind, from_load, throw, init in E; injection E as <- <-; split; reflexivity.
Qed.

(** Scenario A with a loader that fails when [AUTH_KEY] is unset. *)
Lemma load_error_before_requests_witness :
  Scenarios.load_needs_auth_key
    (if existsb (String.eqb "SERVICEID") (vars Scenarios.opts)
     then env_set Scenarios.env "SERVICEID" (resolve_service_id Scenarios.env "svc1")
     else Scenarios.env) "vcl" (vars Scenarios.opts)
    = inl (NewError "AUTH_KEY is not set") /\
  fst (deploy_body Scenarios.ok_oracle Scenarios.load_needs_auth_key "vcl" Scenarios.opts
         Scenarios.env (init Scenarios.st0))
    = Throw (JsObject (NewError "AUTH_KEY is not set")) /\
  w_trace (snd (deploy_body Scenarios.ok_oracle Scenarios.load_needs_auth_key "vcl"
                  Scenarios.opts Scenarios.env (init Scenarios.st0))) = [].
Proof.
  split; [vm_compute; reflexivity|].
  apply (load_error_before_requests Scenarios.ok_oracle Scenarios.load_needs_auth_key "vcl"
           Scenarios.opts Scenarios.env Scenarios.st0
           (fst (deploy_body Scenarios.ok_oracle Scenarios.load_needs_auth_key "vcl"
                   Scenarios.opts Scenarios.env (init Scenarios.st0)))
           (snd (deploy_body Scenarios.ok_oracle Scenarios.load_needs_auth_key "vcl"
                   Scenarios.opts Scenarios.env (init Scenarios.st0)))
           "svc1"); [vm_compute; reflexivity | reflexivity | reflexivity | reflexivity
                    | vm_compute; reflexivity].
Defined.

(** When a deletion is rejected, every deletion of the listed files has
    still been requested, and nothing after them: no upload. *)
Theorem delete_failure_issues_all_deletions o ld folder opts env st0 r w nv old
  (E : deploy_body o ld folder opts env (init st0) = (r, w))
  (HL : In (GetVcl nv, RVcls old) (w_trace w))
  (HF : exists v n m, In (DeleteVcl v n, RFail m) (w_trace w)) :
  exists av, calls w = [GetServices; CloneVersion av; GetVcl nv] ++
                       map (fun f => DeleteVcl nv (vcl_name f)) old.
Proof.
  destruct HF as (v & n & m & HF).
  run_body E.
  all: injection E as <- <-; issue_facts.
  all: split_trace_in HF; split_trace_in HL; trace_cases'.
  all: eexists; calls_of_trace.
Qed.

(** Scenario A with the deletion of [old1.vcl] rejected. *)
Lemma delete_failure_issues_all_deletions_witness :
  In (GetVcl 6, RVcls [mkVcl "old1.vcl" "a"; mkVcl "old2.vcl" "b"])
     (w_trace (snd (Scenarios.run_body Scenarios.delete_fail_oracle Scenarios.opts))) /\
  exists av, calls (snd (Scenarios.run_body Scenarios.delete_fail_oracle Scenarios.opts)) =
             [GetServices; CloneVersion av; GetVcl 6] ++
             map (fun f => DeleteVcl 6 (vcl_name f))
                 [mkVcl "old1.vcl" "a"; mkVcl "old2.vcl" "b"].
Proof.
  assert (HL : In (GetVcl 6, RVcls [mkVcl "old1.vcl" "a"; mkVcl "old2.vcl" "b"])
     (w_trace (snd (Scenarios.run_body Scenarios.delete_fail_oracle Scenarios.opts))))
    by (vm_compute; tauto).
  split; [exact HL|].
  apply (delete_failure_issues_all_deletions Scenarios.delete_fail_oracle Scenarios.load
           "vcl" Scenarios.opts Scenarios.env Scenarios.st0
           (fst (Scenarios.run_body Scenarios.delete_fail_oracle Scenarios.opts))
           (snd (Scenarios.run_body Scenarios.delete_fail_oracle Scenarios.opts))
           6 [mkVcl "old1.vcl" "a"; mkVcl "old2.vcl" "b"]); [vm_compute; reflexivity | exact HL|].
  exists 6, "old1.vcl", "404 Not Found"; vm_compute; tauto.
Defined.

(** When an upload is rejected, every deletion and every upload of the
    loaded files has still been requested, and nothing after them: the
    main file is not set. *)
Theorem upload_failure_issues_all_uploads o ld folder opts env st0 r w nv old
  (E : deploy_body o ld folder opts env (init st0) = (r, w))
  (HL : In (GetVcl nv, RVcls old) (w_trace w))
  (HF : exists v n c m, In (UpdateVcl v n c, RFail m) (w_trace w)) :
  exists av vcls env',
    ld env' folder (vars opts) = inr vcls /\
    calls w = [GetServices; CloneVersion av; GetVcl nv] ++
              map (fun f => DeleteVcl nv (vcl_name f)) old ++
              map (fun f => UpdateVcl nv (vcl_name f) (vcl_content f)) vcls.
Proof.
  destruct HF as (v & n & c & m & HF).
  run_body E.
  all: injection E as <- <-; issue_facts.
  all: split_trace_in HF; split_trace_in HL; trace_cases'.
  all: do 3 eexists; split; [eassumption | calls_of_trace].
Qed.

(** Scenario C. *)
Lemma upload_failure_issues_all_uploads_witness :
  In (GetVcl 6, RVcls [mkVcl "old1.vcl" "a"; mkVcl "old2.vcl" "b"])
     (w_trace (snd (Scenarios.run_body Scenarios.upload_fail_oracle Scenarios.opts))) /\
  exists av vcls env',
    Scenarios.load env' "vcl" (vars Scenarios.opts) = inr vcls /\
    calls (snd (Scenarios.run_body Scenarios.upload_fail_oracle Scenarios.opts)) =
      [GetServices; CloneVersion av; GetVcl 6] ++
      map (fun f => DeleteVcl 6 (vcl_name f)) [mkVcl "old1.vcl" "a"; mkVcl "old2.vcl" "b"] ++
      map (fun f => UpdateVcl 6 (vcl_name f) (vcl_content f)) vcls.
Proof.
  assert (HL : In (GetVcl 6, RVcls [mkVcl "old1.vcl" "a"; mkVcl "old2.vcl" "b"])
     (w_trace (snd (Scenarios.run_body Scenarios.upload_fail_oracle Scenarios.opts))))
    by (vm_compute; tauto).
  split; [exact HL|].
  apply (upload_failure_issues_all_uploads Scenarios.upload_fail_oracle Scenarios.load
           "vcl" Scenarios.opts Scenarios.env Scenarios.st0
           (fst (Scenarios.run_body Scenarios.upload_fail_oracle Scenarios.opts))
           (snd (Scenarios.run_body Scenarios.upload_fail_oracle Scenarios.opts))
           6 [mkVcl "old1.vcl" "a"; mkVcl "old2.vcl" "b"]); [vm_compute; reflexivity | exact HL|].
  exists 6, "edge.vcl", "e", "500 Internal Server Error"; vm_compute; tauto.
Defined.

(** Every request of a run after the clone is about the version the clone
    answered with. *)
Theorem requests_target_clone o ld folder opts env st0 r w av nv
  (E : deploy_body o ld folder opts env (init st0) = (r, w))
  (Hc : In (CloneVersion av, RClone nv) (w_trace w)) :
  forall c resp, In (c, resp) (w_trace w) ->
    c = GetServices \/ c = CloneVersion av \/ call_version c = Some nv.
Proof.
  intros c resp Hin; run_body E.
  all: injection E as <- <-; issue_facts.
  all: split_trace_in Hc; split_trace_in Hin; trace_cases'.
  all: first
    [ left; reflexivity | right; left; reflexivity | right; right; reflexivity
    | match goal with
      | H : In (_, _) (combine (map _ _) _) |- _ =>
          apply in_combine_map_call in H as [? ->]; right; right; reflexivity
      end ].
Qed.

(** Scenario A. *)
Lemma requests_target_clone_witness :
  In (CloneVersion 5, RClone 6)
     (w_trace (snd (Scenarios.run_body Scenarios.ok_oracle Scenarios.opts))) /\
  forall c resp, In (c, resp) (w_trace (snd (Scenarios.run_body Scenarios.ok_oracle Scenarios.opts))) ->
    c = GetServices \/ c = CloneVersion 5 \/ call_version c = Some 6.
Proof.
  assert (Hc : In (CloneVersion 5, RClone 6)
     (w_trace (snd (Scenarios.run_body Scenarios.ok_oracle Scenarios.opts))))
    by (vm_compute; tauto).
  split; [exact Hc|].
  apply (requests_target_clone Scenarios.ok_oracle Scenarios.load "vcl" Scenarios.opts
           Scenarios.env Scenarios.st0
           (fst (Scenarios.run_body Scenarios.ok_oracle Scenarios.opts))
           (snd (Scenarios.run_body Scenarios.ok_oracle Scenarios.opts)) 5 6);
    [vm_compute; reflexivity | exact Hc].
Defined.

(** *** What the task reports *)



